(** * Sea-Lion Telegram relay ([app.py]): escaping, routing, relay and
      webhook registration

    A shallow embedding of [src/app.py].  Python [str] values are sequences
    of Unicode code points, JSON payloads are a first-order tree, and the
    handlers run in a small monad that threads the trace of observable
    events (log records and outbound calls) and carries Python's exceptions
    and [exit]. *)

From Stdlib Require Import List String Ascii NArith ZArith Bool Lia.
Import ListNotations.

Set Implicit Arguments.
Set Warnings "-register-all".

#[local] Open Scope N_scope.

(** ** Text *)

Module Text.

(** A Python [str] is a sequence of code points. *)
Definition codepoint := N.
Definition text := list codepoint.

(** A literal of the source, character by character. *)
Fixpoint py (s : string) : text :=
  match s with
  | EmptyString => []
  | String a s' => N_of_ascii a :: py s'
  end.

Definition text_eqb (s t : text) : bool :=
  if list_eq_dec N.eq_dec s t then true else false.

Fixpoint startswith (p s : text) : bool :=
  match p, s with
  | [], _ => true
  | _ :: _, [] => false
  | a :: p', b :: s' => N.eqb a b && startswith p' s'
  end.

(** [p in s] on two strings: [p] occurs in [s] as a substring. *)
Fixpoint substring_in (p s : text) : bool :=
  startswith p s ||
  match s with
  | [] => false
  | _ :: s' => substring_in p s'
  end.

(** Truthiness of a string: the empty string is falsy. *)
Definition nonempty (s : text) : bool :=
  match s with [] => false | _ :: _ => true end.

End Text.
Import Text.

(** ** The MarkdownV2 escaper (lines 116-130) *)

Module Escaper.

Definition backslash : codepoint := 92.

(** *** The fragment of [re] the module uses

    The source compiles one pattern, [(\\|[CLASS])]: one capturing group
    around an alternative of a literal backslash and a bracketed class,
    so a match is always exactly one character and group 1 is that
    character.  The class body is read as [re] reads it when it holds no
    range and no category escape: a backslash makes the next character
    literal, every other character stands for itself. *)
Fixpoint class_members (body : text) : list codepoint :=
  match body with
  | [] => []
  | c :: rest =>
      if N.eqb c backslash then
        match rest with
        | [] => []
        | d :: rest' => d :: class_members rest'
        end
      else c :: class_members rest
  end.

(** Line 119: the raw class body. *)
Definition MD2_SPECIALS : text := py "_\*\[\]\(\)~`>#+\-=|{}\.!".

(** Line 122: [re.compile(rf"(\\|[{MD2_SPECIALS}])")], as the test
    "does the pattern match this one character". *)
Definition _PATTERN (c : codepoint) : bool :=
  N.eqb c backslash || existsb (N.eqb c) (class_members MD2_SPECIALS).

(** A replacement template: literal characters and references to
    group 1. *)
Inductive template_item :=
| TLit (c : codepoint)
| TGroup1.

(** [re] reads a replacement string so: backslash-backslash is one
    literal backslash, backslash-1 is group 1, other characters are
    literal. *)
Fixpoint parse_template (r : text) : list template_item :=
  match r with
  | [] => []
  | c :: rest =>
      if N.eqb c backslash then
        match rest with
        | [] => [TLit c]
        | d :: rest' =>
            (if N.eqb d backslash then TLit backslash
             else if N.eqb d 49 then TGroup1
             else TLit d) :: parse_template rest'
        end
      else TLit c :: parse_template rest
  end.

Definition expand (t : list template_item) (g1 : codepoint) : text :=
  map (fun i => match i with TLit c => c | TGroup1 => g1 end) t.

(** [pattern.sub(repl, s)] for a pattern whose matches are single
    characters: scan from the left; at a matching character emit the
    expanded template and resume after it, otherwise copy the
    character. *)
Fixpoint sub (pattern : codepoint -> bool) (repl : list template_item)
    (s : text) : text :=
  match s with
  | [] => []
  | c :: s' =>
      if pattern c then expand repl c ++ sub pattern repl s'
      else c :: sub pattern repl s'
  end.

(** Line 130: [_PATTERN.sub(r"\\\1", text)]. *)
Definition escape_markdown_v2 (t : text) : text :=
  sub _PATTERN (parse_template (py "\\\1")) t.

(** *** The escaper as the specification words it

    The reserved characters: the escape character itself, then
    underscore, asterisk, brackets, parentheses, tilde, backtick,
    greater-than, hash, plus, hyphen, equals, pipe, braces, period and
    exclamation mark. *)
Definition reserved : list codepoint :=
  [ 92; 95; 42; 91; 93; 40; 41; 126; 96; 62; 35; 43; 45; 61; 124;
    123; 125; 46; 33 ].

Definition is_reserved (c : codepoint) : bool := existsb (N.eqb c) reserved.

(** Each reserved character is prefixed by one escape character, every
    other character is kept. *)
Definition escape_spec (t : text) : text :=
  flat_map (fun c => if is_reserved c then [backslash; c] else [c]) t.

(** The inverse used to show that escaping loses nothing: an escape
    character is dropped and the character after it is taken as it is. *)
Fixpoint unescape (t : text) : text :=
  match t with
  | [] => []
  | c :: rest =>
      if N.eqb c backslash then
        match rest with
        | [] => []
        | d :: rest' => d :: unescape rest'
        end
      else c :: unescape rest
  end.

End Escaper.
Import Escaper.

(** ** JSON values, as [request.get_json()] and [json=...] carry them *)

Module Json.

(** Numbers are integers: chat identities and HTTP statuses are, and the
    handlers never compute with a number. *)
Inductive json :=
| JNull
| JBool (b : bool)
| JNum (n : Z)
| JStr (s : text)
| JArr (items : list json)
| JObj (fields : list (text * json)).

(** A [dict] as an association list; the first binding of a key is the
    one the dictionary holds. *)
Fixpoint lookup (k : text) (fields : list (text * json)) : option json :=
  match fields with
  | [] => None
  | (k', v) :: rest => if text_eqb k k' then Some v else lookup k rest
  end.

(** [x == k] for a string [k]: only an equal string is equal. *)
Definition is_str (k : text) (x : json) : bool :=
  match x with
  | JStr s => text_eqb k s
  | _ => false
  end.

(** An inbound update is a JSON object, given by its fields; the [message]
    sub-object is optional. *)
Definition InboundUpdate : Type := list (text * json).

Definition jopt (o : option text) : json :=
  match o with
  | Some s => JStr s
  | None => JNull
  end.

End Json.
Import Json.

(** ** Exceptions, outcomes and the event trace *)

Module Runtime.

Inductive exn :=
| KeyError (key : text)
| TypeError
| IndexError
| RuntimeError
| RequestException (detail : text)   (* raised by [requests] *)
| OpenAIError (detail : text).       (* raised by the completion client *)

(** How a call ends: with a value, with an exception that nobody caught,
    or with [exit(code)]. *)
Inductive result (A : Type) :=
| Returned (a : A)
| Raised (e : exn)
| Exited (code : Z).
Arguments Raised {A} e.
Arguments Exited {A} code.

Inductive level := INFO | ERROR.

(** What a run lets the outside observe, in order. *)
Inductive event :=
| Log (lv : level) (fmt : text) (args : list json)
| RequestsPost (url : text) (body : json)
| ChatCompletionsCreate (model : text) (messages : json).

(** A computation is the events it emitted and how it ended. *)
Definition M (A : Type) : Type := list event * result A.

Definition ret {A} (a : A) : M A := ([], Returned a).

Definition bind {A B} (m : M A) (k : A -> M B) : M B :=
  match m with
  | (tr, Returned a) => let (tr', r) := k a in (tr ++ tr', r)
  | (tr, Raised e) => (tr, Raised e)
  | (tr, Exited c) => (tr, Exited c)
  end.

Definition lift {A} (r : result A) : M A := ([], r).
Definition raise {A} (e : exn) : M A := ([], Raised e).
Definition exit {A} (code : Z) : M A := ([], Exited code).
Definition emit (e : event) : M unit := ([e], Returned tt).
Definition log (lv : level) (fmt : string) (args : list json) : M unit :=
  emit (Log lv (py fmt) args).

Definition trace {A} (m : M A) : list event := fst m.
Definition outcome {A} (m : M A) : result A := snd m.

(** The outbound HTTP calls of a trace. *)
Definition posts (tr : list event) : list event :=
  filter (fun e => match e with RequestsPost _ _ => true | _ => false end) tr.

(** The two remote services.  Within one run of a handler no request is
    issued twice, so an answer per request describes every behaviour of
    the services the handler can meet. *)
Inductive post_result :=
| PostResponse (status_code : Z) (text : text)
| PostRaises (e : exn).

(** A completion: the [message.content] of each choice, [None] when the
    backend sent no content. *)
Inductive create_result :=
| CreateResponse (choices : list (option text))
| CreateRaises (e : exn).

Record Env := {
  post_answer : text -> json -> post_result;
  create_answer : text -> json -> create_result
}.

Definition requests_post (env : Env) (url : text) (body : json)
    : M (Z * text) :=
  bind (emit (RequestsPost url body)) (fun _ =>
    match post_answer env url body with
    | PostResponse status_code text => ret (status_code, text)
    | PostRaises e => raise e
    end).

Definition chat_completions_create (env : Env) (model : text)
    (messages : json) : M (list (option text)) :=
  bind (emit (ChatCompletionsCreate model messages)) (fun _ =>
    match create_answer env model messages with
    | CreateResponse choices => ret choices
    | CreateRaises e => raise e
    end).

(** [k in x]. *)
Definition contains (k : text) (x : json) : result bool :=
  match x with
  | JObj fields =>
      Returned (match lookup k fields with Some _ => true | None => false end)
  | JArr items => Returned (existsb (is_str k) items)
  | JStr s => Returned (substring_in k s)
  | JNull | JBool _ | JNum _ => Raised TypeError
  end.

(** [x[k]] for a string [k]. *)
Definition subscript (x : json) (k : text) : result json :=
  match x with
  | JObj fields =>
      match lookup k fields with
      | Some v => Returned v
      | None => Raised (KeyError k)
      end
  | _ => Raised TypeError
  end.

(** [xs[0]]. *)
Definition first {A} (xs : list A) : result A :=
  match xs with
  | x :: _ => Returned x
  | [] => Raised IndexError
  end.

Definition rbind {A B} (r : result A) (k : A -> result B) : result B :=
  match r with
  | Returned a => k a
  | Raised e => Raised e
  | Exited c => Exited c
  end.

End Runtime.
Import Runtime.

Declare Scope app_scope.
Delimit Scope app_scope with app.
Notation "x <- m ;; k" := (bind m (fun x => k))
  (at level 61, m at next level, right associativity) : app_scope.
Notation "m ;; k" := (bind m (fun _ => k))
  (at level 61, right associativity) : app_scope.
Notation "x <~ r ;; k" := (rbind r (fun x => k))
  (at level 61, r at next level, right associativity) : app_scope.

(** ** The application (lines 47-60, 68-106, 157-204) *)

Module App.

#[local] Open Scope app_scope.

(** Lines 47-60: what the module reads from the environment and from
    [config.yaml].  [os.getenv] gives [None] for an unset variable and
    YAML gives [None] for an empty entry. *)
Record Config := {
  TELEGRAM_TOKEN : option text;
  WEBHOOK_URL : option text;
  SEA_LION_API_KEY : option text;
  MODEL : text;
  SYSTEM_PROMPT : text
}.

(** Truthiness of an optional string: [None] and [""] are falsy. *)
Definition truthy (o : option text) : bool :=
  match o with
  | Some s => nonempty s
  | None => false
  end.

(** An optional string inside an f-string. *)
Definition fstr (o : option text) : text :=
  match o with
  | Some s => s
  | None => py "None"
  end.

(** [x or ""]. *)
Definition or_empty (o : option text) : text :=
  match o with
  | Some s => if nonempty s then s else []
  | None => []
  end.

(** [jsonify(obj)]: it needs an application context and raises
    [RuntimeError] outside of one. *)
Definition jsonify (app_context : bool) (obj : json) : M json :=
  if app_context then ret obj else raise RuntimeError.

(** *** [set_webhook] (lines 68-106) *)

Definition delete_webhook_url (cfg : Config) : text :=
  py "https://api.telegram.org/bot" ++ fstr (TELEGRAM_TOKEN cfg)
    ++ py "/deleteWebhook".

Definition delete_webhook_body (cfg : Config) : json :=
  JObj [ (py "url", jopt (WEBHOOK_URL cfg));
         (py "drop_pending_updates", JBool true) ].

Definition set_webhook_url (cfg : Config) : text :=
  py "https://api.telegram.org/bot" ++ fstr (TELEGRAM_TOKEN cfg)
    ++ py "/setWebhook?url=" ++ fstr (WEBHOOK_URL cfg)
    ++ py "/webhook_telegram".

Definition set_webhook_body (cfg : Config) : json :=
  JObj [ (py "url", jopt (WEBHOOK_URL cfg)) ].

Definition webhook_set_status : json :=
  JObj [ (py "status", JStr (py "Webhook set successfully")) ].

Definition set_webhook (cfg : Config) (env : Env) (app_context : bool)
    : M (json * Z) :=
  log INFO "Starting Telegram Bot with Sea-Lion integration..." [] ;;
  (if negb (truthy (TELEGRAM_TOKEN cfg)) || negb (truthy (WEBHOOK_URL cfg))
   then
     log ERROR
       "TELEGRAM_TOKEN and WEBHOOK_URL must be set in the environment or config.yaml"
       [] ;;
     exit 1%Z
   else ret tt) ;;
  (if negb (truthy (SEA_LION_API_KEY cfg))
   then
     log ERROR "SEA_LION_API_KEY must be set in the environment" [] ;;
     exit 1%Z
   else ret tt) ;;
  log INFO "Using Sea-Lion model: %s" [JStr (MODEL cfg)] ;;
  log INFO "Using Telegram webhook URL: %s" [jopt (WEBHOOK_URL cfg)] ;;
  log INFO "Using System Prompt set" [] ;;
  response <- requests_post env (delete_webhook_url cfg)
                (delete_webhook_body cfg) ;;
  (if Z.eqb (fst response) 200
   then log INFO "Previous Webhook %s removed" [jopt (WEBHOOK_URL cfg)]
   else log ERROR "Failed to remove webhook: %s - %s"
          [JNum (fst response); JStr (snd response)]) ;;
  log INFO "Setting new webhook to %s" [JStr (set_webhook_url cfg)] ;;
  response <- requests_post env (set_webhook_url cfg)
                (set_webhook_body cfg) ;;
  (if Z.eqb (fst response) 200
   then log INFO "Webhook set successfully to %s" [jopt (WEBHOOK_URL cfg)]
   else log ERROR "Failed to set webhook: %s - %s"
          [JNum (fst response); JStr (snd response)]) ;;
  body <- jsonify app_context webhook_set_status ;;
  ret (body, 200%Z).

(** *** [webhook_telegram] (lines 157-204) *)

Inductive RoutingDecision :=
| RelayMessage (chat_id : json) (user_text : json)
| Ignore.

(** Lines 166-168, the part of the handler that decides what to do with
    the update: the membership test and the two field reads, in the
    order the source evaluates them. *)
Definition route (data : json) : result RoutingDecision :=
  is_message <~ contains (py "message") data ;;
  if is_message then
    message <~ subscript data (py "message") ;;
    chat <~ subscript message (py "chat") ;;
    chat_id <~ subscript chat (py "id") ;;
    message <~ subscript data (py "message") ;;
    user_text <~ subscript message (py "text") ;;
    Returned (RelayMessage chat_id user_text)
  else Returned Ignore.

(** What a Flask view returns: a body and a status. *)
Inductive body :=
| JsonBody (j : json)
| TextBody (t : text).

Definition http_response : Type := body * Z.

Definition messages (cfg : Config) (user_text : json) : json :=
  JArr [ JObj [ (py "role", JStr (py "system"));
                (py "content", JStr (SYSTEM_PROMPT cfg)) ];
         JObj [ (py "role", JStr (py "user"));
                (py "content", user_text) ] ].

Definition send_url (cfg : Config) : text :=
  py "https://api.telegram.org/bot" ++ fstr (TELEGRAM_TOKEN cfg)
    ++ py "/sendMessage".

Definition payload (chat_id : json) (escaped_reply : text) : json :=
  JObj [ (py "chat_id", chat_id);
         (py "text", JStr escaped_reply);
         (py "parse_mode", JStr (py "MarkdownV2")) ].

Definition status_ok : http_response :=
  (JsonBody (JObj [ (py "status", JStr (py "ok")) ]), 200%Z).

Definition no_action : http_response := (TextBody [], 200%Z).

(** The handler runs inside a request, where [jsonify] has its
    application context. *)
Definition webhook_telegram (cfg : Config) (env : Env) (data : json)
    : M http_response :=
  log INFO "Received update: %s" [data] ;;
  decision <- lift (route data) ;;
  match decision with
  | RelayMessage chat_id user_text =>
      log INFO "Chat %s says: %s" [chat_id; user_text] ;;
      choices <- chat_completions_create env (MODEL cfg)
                   (messages cfg user_text) ;;
      reply <- lift (first choices) ;;
      log INFO "Sea-Lion replied" [] ;;
      let escaped_reply := escape_markdown_v2 (or_empty reply) in
      resppnse <- requests_post env (send_url cfg)
                    (payload chat_id escaped_reply) ;;
      (if negb (Z.eqb (fst resppnse) 200)
       then log ERROR "Failed to send message: %s - %s"
              [JNum (fst resppnse); JStr (snd resppnse)]
       else log INFO "Message sent successfully to chat %s" [chat_id]) ;;
      ack <- jsonify true (JObj [ (py "status", JStr (py "ok")) ]) ;;
      ret (JsonBody ack, 200%Z)
  | Ignore => ret no_action
  end.

(** The inbound delivery is acknowledged with success: the view returned
    a response with status 200. *)
Definition acknowledged (r : result http_response) : Prop :=
  exists b, r = Returned (b, 200%Z).

(** The configuration passes the two guards of [set_webhook]. *)
Definition configured (cfg : Config) : Prop :=
  truthy (TELEGRAM_TOKEN cfg) = true /\
  truthy (WEBHOOK_URL cfg) = true /\
  truthy (SEA_LION_API_KEY cfg) = true.

End App.
Import App.

(** ** Sample configurations, services and updates *)

Module Samples.

Definition cfg : Config := {|
  TELEGRAM_TOKEN := Some (py "123:abc");
  WEBHOOK_URL := Some (py "https://relay.example");
  SEA_LION_API_KEY := Some (py "key");
  MODEL := py "sea-lion";
  SYSTEM_PROMPT := py "You are helpful."
|}.

(** Both services answer: every post gets [status_code], every completion
    gets [choices]. *)
Definition answering (status_code : Z) (choices : list (option text))
    : Env := {|
  post_answer := fun _ _ => PostResponse status_code (py "body");
  create_answer := fun _ _ => CreateResponse choices
|}.

(** The completion backend is down. *)
Definition backend_down : Env := {|
  post_answer := fun _ _ => PostResponse 200%Z (py "body");
  create_answer := fun _ _ => CreateRaises (OpenAIError (py "503"))
|}.

(** The platform cannot be reached. *)
Definition platform_unreachable : Env := {|
  post_answer := fun _ _ => PostRaises (RequestException (py "timeout"));
  create_answer := fun _ _ => CreateResponse [Some (py "hello")]
|}.

(** The platform refuses the clear call with 500 and the set call with
    404. *)
Definition registration_refused : Env := {|
  post_answer := fun url _ =>
    if text_eqb url (delete_webhook_url cfg)
    then PostResponse 500%Z (py "error")
    else PostResponse 404%Z (py "not found");
  create_answer := fun _ _ => CreateResponse []
|}.

Definition chat : json := JObj [ (py "id", JNum 42%Z) ].

(** A text message. *)
Definition text_update : json :=
  JObj [ (py "update_id", JNum 1%Z);
         (py "message", JObj [ (py "chat", chat);
                               (py "text", JStr (py "hi")) ]) ].


(** An edit, which has no [message] key. *)
Definition edited_update : json :=
  JObj [ (py "update_id", JNum 3%Z);
         (py "edited_message", JObj [ (py "chat", chat);
                                      (py "text", JStr (py "hi")) ]) ].

End Samples.

(** ** What is observed of an escaped text and of a trace *)

Module Observations.

(** The shape of an escaped text, read from the left: an escape character
    is followed by a reserved character, which it escapes; any other
    character stands alone and is not reserved. *)
Fixpoint well_escaped (s : text) : bool :=
  match s with
  | [] => true
  | c :: rest =>
      if N.eqb c backslash then
        match rest with
        | [] => false
        | d :: rest' => _PATTERN d && well_escaped rest'
        end
      else negb (_PATTERN c) && well_escaped rest
  end.

(** How many characters of a text the pattern matches. *)
Definition matches (t : text) : nat := List.length (filter _PATTERN t).

(** Characters that are not markup: digits, letters, the space, the line
    feed, and every code point after the tilde (all of non-ASCII text). *)
Definition plain (c : codepoint) : Prop :=
  48 <= c <= 57 \/ 65 <= c <= 90 \/ 97 <= c <= 122 \/
  c = 32 \/ c = 10 \/ 126 < c.

(** The outbound calls of a trace: everything but the log records. *)
Definition calls (tr : list event) : list event :=
  filter (fun e => match e with Log _ _ _ => false | _ => true end) tr.

(** The ERROR records of a trace. *)
Definition errors (tr : list event) : list event :=
  filter (fun e => match e with Log ERROR _ _ => true | _ => false end) tr.

(** [p] is an initial segment of [l]. *)
Definition is_prefix (p l : list event) : Prop := exists rest, l = p ++ rest.

End Observations.
Import Observations.

(** ** Module start (lines 138-141 and 210-214) *)

Module Startup.

#[local] Open Scope app_scope.

(** What the module does with the registrar when it is loaded: it runs
    [set_webhook] inside [app.app_context()] and logs the pair it returned;
    run as a script ([__name__ == '__main__']) it then calls [set_webhook]
    once more, outside of any application context, and logs that the bot
    is ready.  Lines 216-218, which start the server after that, are not
    part of this definition. *)
Definition module_startup (cfg : Config) (env : Env) (as_script : bool)
    : M unit :=
  response <- set_webhook cfg env true ;;
  log INFO "Webhook response: %s"
    [JArr [fst response; JNum (snd response)]] ;;
  if as_script then
    set_webhook cfg env false ;;
    log INFO "Webhook set successfully. Bot is ready to receive messages." []
  else ret tt.

End Startup.
Import Startup.

(** ** More sample services and updates *)

Module Cases.

(** The platform cannot be reached for the clear call. *)
Definition clear_unreachable : Env := {|
  post_answer := fun _ _ => PostRaises (RequestException (py "refused"));
  create_answer := fun _ _ => CreateResponse []
|}.

(** The platform answers the clear call and cannot be reached for the set
    call. *)
Definition set_unreachable : Env := {|
  post_answer := fun url _ =>
    if text_eqb url (delete_webhook_url Samples.cfg)
    then PostResponse 200%Z (py "ok")
    else PostRaises (RequestException (py "reset"));
  create_answer := fun _ _ => CreateResponse []
|}.

(** No bot token in the environment. *)
Definition no_token : Config := {|
  TELEGRAM_TOKEN := None;
  WEBHOOK_URL := Some (py "https://relay.example");
  SEA_LION_API_KEY := Some (py "key");
  MODEL := py "sea-lion";
  SYSTEM_PROMPT := py "You are helpful."
|}.

(** An empty API key. *)
Definition empty_key : Config := {|
  TELEGRAM_TOKEN := Some (py "123:abc");
  WEBHOOK_URL := Some (py "https://relay.example");
  SEA_LION_API_KEY := Some (py "");
  MODEL := py "sea-lion";
  SYSTEM_PROMPT := py "You are helpful."
|}.

(** An update whose [message] is [null]. *)
Definition null_message_update : json :=
  JObj [ (py "update_id", JNum 4%Z); (py "message", JNull) ].


End Cases.

(** * Properties *)

(** ** Text *)

Lemma text_eqb_eq (s t : text) : text_eqb s t = true <-> s = t.
Proof.
  unfold text_eqb.
  destruct (list_eq_dec N.eq_dec s t); split; congruence.
Qed.

(** ** The escaper *)

Section EscaperFacts.

(** The class of line 119 holds the eighteen punctuation marks, each
    once, in the order they are written. *)
Lemma class_members_MD2_SPECIALS :
  class_members MD2_SPECIALS = py "_*[]()~`>#+-=|{}.!".
Proof. reflexivity. Qed.

Lemma parse_template_repl :
  parse_template (py "\\\1") = [TLit backslash; TGroup1].
Proof. reflexivity. Qed.

(** The compiled pattern matches exactly the reserved characters. *)
Lemma _PATTERN_is_reserved (c : codepoint) : _PATTERN c = is_reserved c.
Proof.
  unfold _PATTERN, is_reserved.
  change (class_members MD2_SPECIALS) with (tl reserved).
  reflexivity.
Qed.

Lemma _PATTERN_backslash (c : codepoint) :
  _PATTERN c = false -> N.eqb c backslash = false.
Proof.
  unfold _PATTERN. intros H.
  apply orb_false_iff in H. tauto.
Qed.

(** One step of the scan. *)
Lemma escape_markdown_v2_cons (c : codepoint) (t : text) :
  escape_markdown_v2 (c :: t) =
  if _PATTERN c then backslash :: c :: escape_markdown_v2 t
  else c :: escape_markdown_v2 t.
Proof.
  unfold escape_markdown_v2. rewrite parse_template_repl.
  cbn [sub]. destruct (_PATTERN c); reflexivity.
Qed.

Lemma escape_markdown_v2_nil : escape_markdown_v2 [] = [].
Proof. reflexivity. Qed.

Lemma escape_markdown_v2_escape_spec (t : text) :
  escape_markdown_v2 t = escape_spec t.
Proof.
  induction t as [|c t IH]; [reflexivity|].
  rewrite escape_markdown_v2_cons, _PATTERN_is_reserved, IH.
  unfold escape_spec. cbn [flat_map].
  destruct (is_reserved c); reflexivity.
Qed.

Lemma unescape_escape_markdown_v2 (t : text) :
  unescape (escape_markdown_v2 t) = t.
Proof.
  induction t as [|c t IH]; [reflexivity|].
  rewrite escape_markdown_v2_cons.
  destruct (_PATTERN c) eqn:Hc.
  - cbn [unescape]. rewrite N.eqb_refl, IH. reflexivity.
  - cbn [unescape]. rewrite (_PATTERN_backslash _ Hc), IH. reflexivity.
Qed.

End EscaperFacts.

(** C3.  On every string, [escape_markdown_v2] does what the specification
    words say: each reserved character (the backslash and the eighteen
    punctuation marks) gets one backslash in front of it and every other
    character is copied, in one pass from the left.  The function is total;
    the empty string maps to itself and ["Hello_World!"] to
    ["Hello\_World\!"]. *)
Theorem escape_markdown_v2_correct :
  (forall t : text, escape_markdown_v2 t = escape_spec t) /\
  reserved = py "\_*[]()~`>#+-=|{}.!" /\
  escape_markdown_v2 (py "") = py "" /\
  escape_markdown_v2 (py "Hello_World!") = py "Hello\_World\!".
Proof.
  split; [exact escape_markdown_v2_escape_spec|].
  repeat split; reflexivity.
Qed.

(** C8.  Escaping twice is not escaping once: ["_"] becomes ["\_"], and
    that becomes ["\\\_"]. *)
Theorem escape_markdown_v2_not_idempotent :
  escape_markdown_v2 (py "_") = py "\_" /\
  escape_markdown_v2 (escape_markdown_v2 (py "_")) = py "\\\_" /\
  escape_markdown_v2 (escape_markdown_v2 (py "_")) <>
    escape_markdown_v2 (py "_").
Proof.
  repeat split; try reflexivity.
  intros H. discriminate H.
Qed.

(** C10.  [unescape] undoes [escape_markdown_v2] on every string, so two
    strings with the same escaped form are the same string. *)
Theorem escape_markdown_v2_injective :
  (forall t : text, unescape (escape_markdown_v2 t) = t) /\
  (forall x y : text,
     escape_markdown_v2 x = escape_markdown_v2 y -> x = y).
Proof.
  split; [exact unescape_escape_markdown_v2|].
  intros x y H.
  rewrite <- (unescape_escape_markdown_v2 x), <- (unescape_escape_markdown_v2 y).
  now rewrite H.
Qed.

Lemma escape_markdown_v2_injective_witness :
  escape_markdown_v2 (py "a_b") = escape_markdown_v2 (py "a_b") /\
  py "a_b" = py "a_b".
Proof.
  split; [reflexivity|].
  apply (proj2 escape_markdown_v2_injective (py "a_b") (py "a_b")).
  reflexivity.
Defined.

(** ** Routing *)

Arguments py : simpl never.

Section RoutingFacts.

Variable fields : InboundUpdate.

Lemma route_no_message :
  lookup (py "message") fields = None ->
  route (JObj fields) = Returned Ignore.
Proof.
  intros H. unfold route, contains. rewrite H. reflexivity.
Qed.

Lemma route_unfold (m : json) :
  lookup (py "message") fields = Some m ->
  route (JObj fields) =
  (chat <~ subscript m (py "chat") ;;
   chat_id <~ subscript chat (py "id") ;;
   user_text <~ subscript m (py "text") ;;
   Returned (RelayMessage chat_id user_text))%app.
Proof.
  intros H. unfold route, contains. rewrite H.
  cbn [rbind subscript]. rewrite H. reflexivity.
Qed.


Lemma route_relay (msg chat : list (text * json)) (cid txt : json) :
  lookup (py "message") fields = Some (JObj msg) ->
  lookup (py "chat") msg = Some (JObj chat) ->
  lookup (py "id") chat = Some cid ->
  lookup (py "text") msg = Some txt ->
  route (JObj fields) = Returned (RelayMessage cid txt).
Proof.
  intros Hm Hc Hi Ht. rewrite (route_unfold Hm).
  cbn [subscript]. rewrite Hc. cbn [rbind subscript].
  rewrite Hi. cbn [rbind]. rewrite Ht. reflexivity.
Qed.





End RoutingFacts.

(** ** The relay handler *)

Section RelayFacts.

Variables (cfg : Config) (env : Env) (data : json).

Let run := webhook_telegram cfg env data.


Lemma handler_ignore :
  route data = Returned Ignore ->
  outcome run = Returned no_action /\ posts (trace run) = [].
Proof.
  intros H. subst run. unfold webhook_telegram. rewrite H.
  split; reflexivity.
Qed.

Variables (chat_id user_text : json).
Hypothesis Hroute : route data = Returned (RelayMessage chat_id user_text).

Lemma handler_create_raises (e : exn) :
  create_answer env (MODEL cfg) (messages cfg user_text) = CreateRaises e ->
  outcome run = Raised e /\ posts (trace run) = [].
Proof.
  intros H. subst run. unfold webhook_telegram, chat_completions_create.
  rewrite Hroute. cbn [log lift bind emit ret]. rewrite H.
  split; reflexivity.
Qed.

Lemma handler_no_choice :
  create_answer env (MODEL cfg) (messages cfg user_text) = CreateResponse [] ->
  outcome run = Raised IndexError /\ posts (trace run) = [].
Proof.
  intros H. subst run. unfold webhook_telegram, chat_completions_create.
  rewrite Hroute. cbn [log lift bind emit ret]. rewrite H.
  split; reflexivity.
Qed.

Variables (reply : option text) (others : list (option text)).
Hypothesis Hcreate :
  create_answer env (MODEL cfg) (messages cfg user_text) =
  CreateResponse (reply :: others).

Let send := RequestsPost (send_url cfg)
              (payload chat_id (escape_markdown_v2 (or_empty reply))).

Lemma handler_send_status (status_code : Z) (body_text : text) :
  post_answer env (send_url cfg)
    (payload chat_id (escape_markdown_v2 (or_empty reply))) =
    PostResponse status_code body_text ->
  outcome run = Returned status_ok /\ posts (trace run) = [send].
Proof.
  intros H. subst run send.
  unfold webhook_telegram, chat_completions_create, requests_post.
  rewrite Hroute. cbn [log lift bind emit ret]. rewrite Hcreate.
  cbn [first log lift bind emit ret].
  rewrite H. cbn [fst snd bind ret].
  destruct (Z.eqb status_code 200); split; reflexivity.
Qed.

Lemma handler_send_raises (e : exn) :
  post_answer env (send_url cfg)
    (payload chat_id (escape_markdown_v2 (or_empty reply))) =
    PostRaises e ->
  outcome run = Raised e /\ posts (trace run) = [send].
Proof.
  intros H. subst run send.
  unfold webhook_telegram, chat_completions_create, requests_post.
  rewrite Hroute. cbn [log lift bind emit ret]. rewrite Hcreate.
  cbn [first log lift bind emit ret].
  rewrite H. split; reflexivity.
Qed.

End RelayFacts.

(** ** The registrar *)

Section RegistrarFacts.

Variables (cfg : Config) (env : Env) (app_context : bool).

Let run := set_webhook cfg env app_context.

Lemma set_webhook_answered (s1 s2 : Z) (t1 t2 : text) :
  configured cfg ->
  post_answer env (delete_webhook_url cfg) (delete_webhook_body cfg) =
    PostResponse s1 t1 ->
  post_answer env (set_webhook_url cfg) (set_webhook_body cfg) =
    PostResponse s2 t2 ->
  posts (trace run) =
    [ RequestsPost (delete_webhook_url cfg) (delete_webhook_body cfg);
      RequestsPost (set_webhook_url cfg) (set_webhook_body cfg) ] /\
  outcome run =
    if app_context then Returned (webhook_set_status, 200%Z)
    else Raised RuntimeError.
Proof.
  intros (Htok & Hurl & Hkey) H1 H2. subst run.
  unfold set_webhook, requests_post.
  rewrite Htok, Hurl, Hkey. cbn [negb orb log bind emit ret].
  rewrite H1. cbn [fst snd log bind emit ret].
  destruct (Z.eqb s1 200); cbn [fst snd log bind emit ret app];
    rewrite H2; cbn [fst snd log bind emit ret app];
    destruct (Z.eqb s2 200); destruct app_context; split; reflexivity.
Qed.

Lemma set_webhook_returned (v : json * Z) :
  outcome run = Returned v -> v = (webhook_set_status, 200%Z).
Proof.
  subst run. unfold set_webhook, requests_post.
  destruct (negb (truthy (TELEGRAM_TOKEN cfg)) ||
            negb (truthy (WEBHOOK_URL cfg))); [discriminate|].
  destruct (negb (truthy (SEA_LION_API_KEY cfg))); [discriminate|].
  cbn [log bind emit ret].
  destruct (post_answer env (delete_webhook_url cfg)
              (delete_webhook_body cfg)) as [s1 t1|e1];
    [|discriminate].
  cbn [fst snd log bind emit ret].
  destruct (Z.eqb s1 200); cbn [fst snd log bind emit ret app];
    (destruct (post_answer env (set_webhook_url cfg)
                 (set_webhook_body cfg)) as [s2 t2|e2];
     [|discriminate]);
    cbn [fst snd log bind emit ret app];
    destruct (Z.eqb s2 200); destruct app_context;
    cbn; congruence.
Qed.

End RegistrarFacts.

(** * The claims about routing, relay and registration *)

Lemma not_acknowledged_raised (e : exn) : ~ acknowledged (Raised e).
Proof. intros [b H]. discriminate H. Qed.

Lemma acknowledged_status_ok : acknowledged (Returned status_ok).
Proof. unfold status_ok. eexists. reflexivity. Qed.

(** C6.  On an update object, [route] gives [Ignore] when the object has no
    [message] key, and [RelayMessage] with the chat identity and the text
    read from the message when [message.chat.id] and [message.text] are
    both there. *)
Theorem route_message_fields (fields : InboundUpdate) :
  (lookup (py "message") fields = None ->
   route (JObj fields) = Returned Ignore) /\
  (forall (msg chat : list (text * json)) (cid txt : json),
     lookup (py "message") fields = Some (JObj msg) ->
     lookup (py "chat") msg = Some (JObj chat) ->
     lookup (py "id") chat = Some cid ->
     lookup (py "text") msg = Some txt ->
     route (JObj fields) = Returned (RelayMessage cid txt)).
Proof.
  split.
  - apply route_no_message.
  - intros msg chat cid txt. apply route_relay.
Qed.

Lemma route_message_fields_witness :
  route Samples.edited_update = Returned Ignore /\
  route Samples.text_update =
    Returned (RelayMessage (JNum 42%Z) (JStr (py "hi"))).
Proof.
  split.
  - apply (proj1 (route_message_fields _)). reflexivity.
  - apply (proj2 (route_message_fields _)
             [ (py "chat", Samples.chat); (py "text", JStr (py "hi")) ]
             [ (py "id", JNum 42%Z) ]);
      reflexivity.
Defined.




(** C2, as the code has it.  When the update is relayed and the completion
    call fails (the client raises, or the answer has no first choice), the
    handler issues no outbound send, and the exception leaves the handler:
    the delivery is not acknowledged. *)
Theorem completion_failure_propagates (cfg : Config) (env : Env)
    (data chat_id user_text : json) :
  route data = Returned (RelayMessage chat_id user_text) ->
  (forall e : exn,
     create_answer env (MODEL cfg) (messages cfg user_text) = CreateRaises e ->
     outcome (webhook_telegram cfg env data) = Raised e /\
     posts (trace (webhook_telegram cfg env data)) = [] /\
     ~ acknowledged (outcome (webhook_telegram cfg env data))) /\
  (create_answer env (MODEL cfg) (messages cfg user_text) = CreateResponse [] ->
   outcome (webhook_telegram cfg env data) = Raised IndexError /\
   posts (trace (webhook_telegram cfg env data)) = [] /\
   ~ acknowledged (outcome (webhook_telegram cfg env data))).
Proof.
  intros Hroute. split.
  - intros e H.
    destruct (handler_create_raises cfg env data Hroute H) as [Ho Hp].
    rewrite Ho, Hp. repeat split. apply not_acknowledged_raised.
  - intros H.
    destruct (handler_no_choice cfg env data Hroute H) as [Ho Hp].
    rewrite Ho, Hp. repeat split. apply not_acknowledged_raised.
Qed.

Lemma completion_failure_propagates_witness :
  outcome (webhook_telegram Samples.cfg Samples.backend_down
             Samples.text_update) = Raised (OpenAIError (py "503")) /\
  posts (trace (webhook_telegram Samples.cfg Samples.backend_down
                  Samples.text_update)) = [].
Proof.
  pose proof (proj1 (@completion_failure_propagates
                       Samples.cfg Samples.backend_down Samples.text_update
                       (JNum 42%Z) (JStr (py "hi")) eq_refl)
                (OpenAIError (py "503")) eq_refl) as H.
  split; [exact (proj1 H) | exact (proj1 (proj2 H))].
Defined.

(** C2 as stated fails: with the backend down, the handler does not
    acknowledge the delivery. *)
Lemma completion_failure_not_acknowledged :
  route Samples.text_update =
    Returned (RelayMessage (JNum 42%Z) (JStr (py "hi"))) /\
  outcome (webhook_telegram Samples.cfg Samples.backend_down
             Samples.text_update) = Raised (OpenAIError (py "503")) /\
  ~ acknowledged (outcome (webhook_telegram Samples.cfg Samples.backend_down
                             Samples.text_update)).
Proof.
  split; [reflexivity|]. split; [reflexivity|].
  change (outcome _) with (@Raised http_response (OpenAIError (py "503"))).
  apply not_acknowledged_raised.
Qed.

(** The send is issued once the completion gave a first choice, whatever
    the platform answers. *)
Lemma handler_send_issued (cfg : Config) (env : Env)
    (data chat_id user_text : json) (reply : option text)
    (others : list (option text)) :
  route data = Returned (RelayMessage chat_id user_text) ->
  create_answer env (MODEL cfg) (messages cfg user_text) =
    CreateResponse (reply :: others) ->
  posts (trace (webhook_telegram cfg env data)) =
    [ RequestsPost (send_url cfg)
        (payload chat_id (escape_markdown_v2 (or_empty reply))) ].
Proof.
  intros Hroute Hcreate.
  destruct (post_answer env (send_url cfg)
              (payload chat_id (escape_markdown_v2 (or_empty reply))))
    as [s t|e] eqn:Hpost.
  - exact (proj2 (handler_send_status cfg env data Hroute Hcreate Hpost)).
  - exact (proj2 (handler_send_raises cfg env data Hroute Hcreate Hpost)).
Qed.

(** C4, as the code has it.  When the update is relayed and the completion
    gave a first choice, the handler acknowledges the delivery with
    [{'status': 'ok'}] and status 200 whatever HTTP status the send call
    returns; when the send call raises instead of returning, the exception
    leaves the handler and nothing is acknowledged. *)
Theorem relay_acknowledged_on_send_status (cfg : Config) (env : Env)
    (data chat_id user_text : json) (reply : option text)
    (others : list (option text)) :
  route data = Returned (RelayMessage chat_id user_text) ->
  create_answer env (MODEL cfg) (messages cfg user_text) =
    CreateResponse (reply :: others) ->
  (forall (status_code : Z) (body_text : text),
     post_answer env (send_url cfg)
       (payload chat_id (escape_markdown_v2 (or_empty reply))) =
       PostResponse status_code body_text ->
     outcome (webhook_telegram cfg env data) = Returned status_ok /\
     acknowledged (outcome (webhook_telegram cfg env data))) /\
  (forall e : exn,
     post_answer env (send_url cfg)
       (payload chat_id (escape_markdown_v2 (or_empty reply))) =
       PostRaises e ->
     outcome (webhook_telegram cfg env data) = Raised e /\
     ~ acknowledged (outcome (webhook_telegram cfg env data))).
Proof.
  intros Hroute Hcreate. split.
  - intros s t Hpost.
    destruct (handler_send_status cfg env data Hroute Hcreate Hpost) as [Ho _].
    rewrite Ho. split; [reflexivity | apply acknowledged_status_ok].
  - intros e Hpost.
    destruct (handler_send_raises cfg env data Hroute Hcreate Hpost) as [Ho _].
    rewrite Ho. split; [reflexivity | apply not_acknowledged_raised].
Qed.

Lemma relay_acknowledged_on_send_status_witness :
  outcome (webhook_telegram Samples.cfg
             (Samples.answering 403 [Some (py "hello")])
             Samples.text_update) = Returned status_ok.
Proof.
  exact (proj1 (proj1 (@relay_acknowledged_on_send_status
                         Samples.cfg
                         (Samples.answering 403 [Some (py "hello")])
                         Samples.text_update (JNum 42%Z) (JStr (py "hi"))
                         (Some (py "hello")) [] eq_refl eq_refl)
                  403%Z (py "body") eq_refl)).
Defined.

(** C4 as stated fails: when the platform cannot be reached for the send,
    the handler ends with the transport exception, not with an
    acknowledgment. *)
Lemma send_transport_failure_not_acknowledged :
  route Samples.text_update =
    Returned (RelayMessage (JNum 42%Z) (JStr (py "hi"))) /\
  outcome (webhook_telegram Samples.cfg Samples.platform_unreachable
             Samples.text_update) =
    Raised (RequestException (py "timeout")) /\
  ~ acknowledged (outcome (webhook_telegram Samples.cfg
                             Samples.platform_unreachable
                             Samples.text_update)).
Proof.
  split; [reflexivity|]. split; [reflexivity|].
  change (outcome _)
    with (@Raised http_response (RequestException (py "timeout"))).
  apply not_acknowledged_raised.
Qed.

(** C7.  When the first choice of the completion has no content ([None])
    or empty content, the handler goes on as for any reply: it issues one
    send whose text is the escaped empty string, that is the empty string,
    with [parse_mode] still [MarkdownV2], and acknowledges once the send
    returns. *)
Theorem empty_reply_is_sent (cfg : Config) (env : Env)
    (data chat_id user_text : json) (reply : option text)
    (others : list (option text)) :
  route data = Returned (RelayMessage chat_id user_text) ->
  create_answer env (MODEL cfg) (messages cfg user_text) =
    CreateResponse (reply :: others) ->
  reply = None \/ reply = Some [] ->
  escape_markdown_v2 (or_empty reply) = [] /\
  posts (trace (webhook_telegram cfg env data)) =
    [ RequestsPost (send_url cfg)
        (JObj [ (py "chat_id", chat_id);
                (py "text", JStr []);
                (py "parse_mode", JStr (py "MarkdownV2")) ]) ] /\
  (forall (status_code : Z) (body_text : text),
     post_answer env (send_url cfg) (payload chat_id []) =
       PostResponse status_code body_text ->
     outcome (webhook_telegram cfg env data) = Returned status_ok).
Proof.
  intros Hroute Hcreate Hreply.
  assert (Hesc : escape_markdown_v2 (or_empty reply) = [])
    by (destruct Hreply as [-> | ->]; reflexivity).
  split; [exact Hesc|]. split.
  - rewrite (handler_send_issued cfg env data Hroute Hcreate), Hesc.
    reflexivity.
  - intros s t Hpost. rewrite <- Hesc in Hpost.
    exact (proj1 (handler_send_status cfg env data Hroute Hcreate Hpost)).
Qed.

Lemma empty_reply_is_sent_witness :
  posts (trace (webhook_telegram Samples.cfg (Samples.answering 200 [None])
                  Samples.text_update)) =
  [ RequestsPost (py "https://api.telegram.org/bot123:abc/sendMessage")
      (JObj [ (py "chat_id", JNum 42%Z);
              (py "text", JStr (py ""));
              (py "parse_mode", JStr (py "MarkdownV2")) ]) ].
Proof.
  exact (proj1 (proj2 (@empty_reply_is_sent
                         Samples.cfg (Samples.answering 200 [None])
                         Samples.text_update (JNum 42%Z) (JStr (py "hi"))
                         None [] eq_refl eq_refl (or_introl eq_refl)))).
Defined.

(** C5.  With the configuration in place and the platform answering both
    calls, whatever the two HTTP statuses are, the registrar issues exactly
    two calls in this order: [deleteWebhook] with [drop_pending_updates]
    set, then [setWebhook] for the callback URL.  The statuses do not
    decide how the registrar ends: inside an application context, where
    the module calls it, it returns. *)
Theorem set_webhook_clear_then_set (cfg : Config) (env : Env)
    (app_context : bool) (token url : text) (s1 s2 : Z) (t1 t2 : text) :
  configured cfg ->
  TELEGRAM_TOKEN cfg = Some token ->
  WEBHOOK_URL cfg = Some url ->
  post_answer env (delete_webhook_url cfg) (delete_webhook_body cfg) =
    PostResponse s1 t1 ->
  post_answer env (set_webhook_url cfg) (set_webhook_body cfg) =
    PostResponse s2 t2 ->
  posts (trace (set_webhook cfg env app_context)) =
    [ RequestsPost
        (py "https://api.telegram.org/bot" ++ token ++ py "/deleteWebhook")
        (JObj [ (py "url", JStr url);
                (py "drop_pending_updates", JBool true) ]);
      RequestsPost
        (py "https://api.telegram.org/bot" ++ token ++ py "/setWebhook?url="
           ++ url ++ py "/webhook_telegram")
        (JObj [ (py "url", JStr url) ]) ] /\
  (app_context = true ->
   outcome (set_webhook cfg env app_context) =
     Returned (webhook_set_status, 200%Z)).
Proof.
  intros Hcfg Htok Hurl H1 H2.
  destruct (set_webhook_answered env app_context Hcfg H1 H2) as [Hp Ho].
  split.
  - rewrite Hp. unfold delete_webhook_url, delete_webhook_body,
      set_webhook_url, set_webhook_body.
    rewrite Htok, Hurl. reflexivity.
  - intros ->. exact Ho.
Qed.

Lemma set_webhook_clear_then_set_witness :
  posts (trace (set_webhook Samples.cfg Samples.registration_refused true)) =
    [ RequestsPost (py "https://api.telegram.org/bot123:abc/deleteWebhook")
        (JObj [ (py "url", JStr (py "https://relay.example"));
                (py "drop_pending_updates", JBool true) ]);
      RequestsPost
        (py "https://api.telegram.org/bot123:abc/setWebhook?url=https://relay.example/webhook_telegram")
        (JObj [ (py "url", JStr (py "https://relay.example")) ]) ] /\
  outcome (set_webhook Samples.cfg Samples.registration_refused true) =
    Returned (webhook_set_status, 200%Z).
Proof.
  pose proof (@set_webhook_clear_then_set
                Samples.cfg Samples.registration_refused true
                (py "123:abc") (py "https://relay.example")
                500%Z 404%Z (py "error") (py "not found")
                (conj eq_refl (conj eq_refl eq_refl))
                eq_refl eq_refl eq_refl eq_refl) as [Hp Ho].
  split; [exact Hp | exact (Ho eq_refl)].
Defined.

(** C9.  Whenever [set_webhook] returns, it returns
    [{'status': 'Webhook set successfully'}] with 200; and it does return
    that, inside an application context, when the platform answered the
    clear call, the set call or both with a status other than 200. *)
Theorem set_webhook_status_constant (cfg : Config) (env : Env)
    (app_context : bool) :
  (forall v : json * Z,
     outcome (set_webhook cfg env app_context) = Returned v ->
     v = (JObj [ (py "status", JStr (py "Webhook set successfully")) ],
          200%Z)) /\
  (forall (s1 s2 : Z) (t1 t2 : text),
     configured cfg ->
     app_context = true ->
     post_answer env (delete_webhook_url cfg) (delete_webhook_body cfg) =
       PostResponse s1 t1 ->
     post_answer env (set_webhook_url cfg) (set_webhook_body cfg) =
       PostResponse s2 t2 ->
     outcome (set_webhook cfg env app_context) =
       Returned (JObj [ (py "status", JStr (py "Webhook set successfully")) ],
                 200%Z)).
Proof.
  split.
  - intros v H. exact (set_webhook_returned cfg env app_context H).
  - intros s1 s2 t1 t2 Hcfg -> H1 H2.
    exact (proj2 (set_webhook_answered env true Hcfg H1 H2)).
Qed.

Lemma set_webhook_status_constant_witness :
  post_answer Samples.registration_refused
    (delete_webhook_url Samples.cfg) (delete_webhook_body Samples.cfg) =
    PostResponse 500%Z (py "error") /\
  post_answer Samples.registration_refused
    (set_webhook_url Samples.cfg) (set_webhook_body Samples.cfg) =
    PostResponse 404%Z (py "not found") /\
  outcome (set_webhook Samples.cfg Samples.registration_refused true) =
    Returned (JObj [ (py "status", JStr (py "Webhook set successfully")) ],
              200%Z).
Proof.
  split; [reflexivity|]. split; [reflexivity|].
  exact (proj2 (set_webhook_status_constant
                  Samples.cfg Samples.registration_refused true)
           500%Z 404%Z (py "error") (py "not found")
           (conj eq_refl (conj eq_refl eq_refl))
           eq_refl eq_refl eq_refl).
Defined.

(** * Further properties of the escaper *)

Section EscaperAlgebra.

Lemma escape_length (t : text) :
  List.length (escape_markdown_v2 t) = (List.length t + matches t)%nat.
Proof.
  unfold matches.
  induction t as [|c t IH]; [reflexivity|].
  rewrite escape_markdown_v2_cons. cbn [filter].
  destruct (_PATTERN c); cbn [List.length]; rewrite IH; lia.
Qed.

Lemma matches_le_length (t : text) : (matches t <= List.length t)%nat.
Proof. unfold matches. apply filter_length_le. Qed.

Lemma escape_unmatched (t : text) :
  forallb (fun c => negb (_PATTERN c)) t = true -> escape_markdown_v2 t = t.
Proof.
  induction t as [|c t IH]; [reflexivity|].
  cbn [forallb]. rewrite escape_markdown_v2_cons.
  destruct (_PATTERN c); cbn [negb andb]; [discriminate|].
  intros H. now rewrite (IH H).
Qed.

Lemma well_escaped_escape (t : text) :
  well_escaped (escape_markdown_v2 t) = true.
Proof.
  induction t as [|c t IH]; [reflexivity|].
  rewrite escape_markdown_v2_cons.
  destruct (_PATTERN c) eqn:Hc.
  - cbn [well_escaped]. rewrite N.eqb_refl, Hc, IH. reflexivity.
  - cbn [well_escaped]. rewrite (_PATTERN_backslash _ Hc), Hc, IH.
    reflexivity.
Qed.

(** The two scanners skip a pair at an escape character, so the
    induction is on a bound of the length. *)
Lemma escape_unescape_bounded (n : nat) :
  forall s : text,
    (List.length s <= n)%nat ->
    well_escaped s = true ->
    escape_markdown_v2 (unescape s) = s.
Proof.
  induction n as [|n IH]; intros s Hlen Hw.
  - destruct s; [reflexivity | cbn in Hlen; lia].
  - destruct s as [|c rest]; [reflexivity|].
    cbn [well_escaped] in Hw. cbn [unescape].
    destruct (N.eqb c backslash) eqn:Hc.
    + apply N.eqb_eq in Hc. subst c.
      destruct rest as [|d rest']; [discriminate Hw|].
      apply andb_true_iff in Hw. destruct Hw as [Hd Hw].
      rewrite escape_markdown_v2_cons, Hd.
      rewrite (IH rest'); [reflexivity | cbn in Hlen; lia | exact Hw].
    + apply andb_true_iff in Hw. destruct Hw as [Hd Hw].
      apply negb_true_iff in Hd.
      rewrite escape_markdown_v2_cons, Hd.
      rewrite (IH rest); [reflexivity | cbn in Hlen; lia | exact Hw].
Qed.

Lemma _PATTERN_plain (c : codepoint) : plain c -> _PATTERN c = false.
Proof.
  intros Hc. rewrite _PATTERN_is_reserved.
  apply not_true_iff_false. intros H.
  apply existsb_exists in H. destruct H as (k & Hin & Hk).
  apply N.eqb_eq in Hk. subst k.
  unfold reserved in Hin. cbn [In] in Hin. unfold plain in Hc.
  repeat (destruct Hin as [Hin|Hin]; [lia|]).
  exact Hin.
Qed.

End EscaperAlgebra.

(** X1.  Escaping a concatenation is concatenating the escaped parts: a
    reply can be escaped piece by piece. *)
Theorem escape_markdown_v2_app (a b : text) :
  escape_markdown_v2 (a ++ b) = escape_markdown_v2 a ++ escape_markdown_v2 b.
Proof.
  induction a as [|c a IH]; [reflexivity|].
  rewrite <- app_comm_cons, !escape_markdown_v2_cons, IH.
  destruct (_PATTERN c); reflexivity.
Qed.

(** X2.  The escaped text is longer than the text by one character per
    matched character, so its length is between the length of the text
    and twice that. *)
Theorem escape_markdown_v2_length (t : text) :
  List.length (escape_markdown_v2 t) = (List.length t + matches t)%nat /\
  (List.length t <= List.length (escape_markdown_v2 t) <= 2 * List.length t)%nat.
Proof.
  pose proof (escape_length t). pose proof (matches_le_length t).
  split; [assumption | lia].
Qed.

(** X3.  [escape_markdown_v2] returns a text unchanged exactly when the
    pattern matches none of its characters. *)
Theorem escape_markdown_v2_unchanged_iff (t : text) :
  escape_markdown_v2 t = t <-> forallb (fun c => negb (_PATTERN c)) t = true.
Proof.
  split; [|apply escape_unmatched].
  intros H.
  assert (Hm : matches t = 0%nat).
  { pose proof (escape_length t) as Hl. rewrite H in Hl. lia. }
  unfold matches in Hm. clear H.
  induction t as [|c t IH]; [reflexivity|].
  cbn [filter] in Hm. cbn [forallb].
  destruct (_PATTERN c); [discriminate Hm|].
  cbn [negb andb]. exact (IH Hm).
Qed.

Lemma escape_markdown_v2_unchanged_iff_witness :
  escape_markdown_v2 (py "Hello world") = py "Hello world".
Proof.
  apply (proj2 (escape_markdown_v2_unchanged_iff (py "Hello world"))).
  reflexivity.
Defined.

(** X4.  The escaped texts are exactly the well-escaped ones: every output
    of [escape_markdown_v2] is well escaped, and a well-escaped text is the
    output for its unescaped reading. *)
Theorem well_escaped_iff_escaped (s : text) :
  well_escaped s = true <-> exists t : text, s = escape_markdown_v2 t.
Proof.
  split.
  - intros H. exists (unescape s). symmetry.
    now apply (@escape_unescape_bounded (List.length s)).
  - intros [t ->]. apply well_escaped_escape.
Qed.

Lemma well_escaped_iff_escaped_witness :
  exists t : text, py "1\.5 \* x" = escape_markdown_v2 t.
Proof.
  apply (proj1 (well_escaped_iff_escaped (py "1\.5 \* x"))).
  reflexivity.
Defined.

(** X5.  A text made of digits, letters, spaces, line feeds and non-ASCII
    characters only is returned as it is. *)
Theorem escape_markdown_v2_plain (t : text) :
  (forall c : codepoint, In c t -> plain c) ->
  escape_markdown_v2 t = t.
Proof.
  intros H. apply escape_unmatched. apply forallb_forall.
  intros c Hc. now rewrite (_PATTERN_plain (H c Hc)).
Qed.

Lemma escape_markdown_v2_plain_witness :
  escape_markdown_v2 [20320; 22909; 32; 49] = [20320; 22909; 32; 49].
Proof.
  apply escape_markdown_v2_plain.
  intros c Hc. unfold plain. cbn [In] in Hc.
  repeat (destruct Hc as [Hc|Hc]; [subst c; lia|]).
  destruct Hc.
Defined.

(** * Further properties of the relay handler *)

Lemma subscript_not_exited (x : json) (k : text) (c : Z) :
  subscript x k <> Exited c.
Proof.
  destruct x; cbn [subscript]; try discriminate.
  destruct (lookup k fields); discriminate.
Qed.

Lemma route_not_exited (data : json) (c : Z) : route data <> Exited c.
Proof.
  unfold route.
  destruct (contains (py "message") data) as [[|]| |] eqn:Hc;
    cbn [rbind]; try discriminate.
  - destruct (subscript data (py "message")) as [m| |] eqn:Hm;
      cbn [rbind]; try discriminate;
      try (intros _; eapply subscript_not_exited; eassumption).
    destruct (subscript m (py "chat")) as [ch| |] eqn:Hch;
      cbn [rbind]; try discriminate;
      try (intros _; eapply subscript_not_exited; eassumption).
    destruct (subscript ch (py "id")) as [cid| |] eqn:Hid;
      cbn [rbind]; try discriminate;
      try (intros _; eapply subscript_not_exited; eassumption).
    destruct (subscript m (py "text")) as [txt| |] eqn:Htx;
      cbn [rbind]; try discriminate;
      try (intros _; eapply subscript_not_exited; eassumption).
  - destruct data; cbn [contains] in Hc; discriminate.
Qed.

(** Every run of the handler, by cases on what routing decided and what
    the two services answered. *)
Ltac handler_cases cfg env data :=
  unfold webhook_telegram, chat_completions_create, requests_post;
  let cid := fresh "cid" in
  let txt := fresh "txt" in
  let Hr := fresh "Hroute" in
  destruct (route data) as [[cid txt|]|?e|?c] eqn:Hr;
  cbn [log lift bind emit ret raise];
  [ let r := fresh "reply" in
    let o := fresh "others" in
    destruct (create_answer env (MODEL cfg) (messages cfg txt))
      as [[|r o]|?e] eqn:?Hcreate;
    cbn [first log lift bind emit ret raise];
    [ | let s := fresh "status" in
        let t := fresh "body_text" in
        destruct (post_answer env (send_url cfg)
                    (payload cid (escape_markdown_v2 (or_empty r))))
          as [s t|?e];
        cbn [fst snd first log lift bind emit ret raise jsonify];
        [ destruct (Z.eqb s 200);
          cbn [negb fst snd log lift bind emit ret raise app] | ]
      | ]
  | | | exfalso; exact (route_not_exited _ Hr) ].

Section HandlerRuns.

Variables (cfg : Config) (env : Env) (data : json).

Let received := Log INFO (py "Received update: %s") [data].

Lemma handler_run_raises (e : exn) :
  route data = Raised e ->
  webhook_telegram cfg env data = ([received], Raised e).
Proof.
  intros H. unfold webhook_telegram. rewrite H. reflexivity.
Qed.

Lemma handler_run_ignore :
  route data = Returned Ignore ->
  webhook_telegram cfg env data = ([received], Returned no_action).
Proof.
  intros H. unfold webhook_telegram. rewrite H. reflexivity.
Qed.

Variables (chat_id user_text : json) (reply : option text)
  (others : list (option text)) (status_code : Z) (body_text : text).

Hypothesis Hroute : route data = Returned (RelayMessage chat_id user_text).
Hypothesis Hcreate :
  create_answer env (MODEL cfg) (messages cfg user_text) =
  CreateResponse (reply :: others).
Hypothesis Hpost :
  post_answer env (send_url cfg)
    (payload chat_id (escape_markdown_v2 (or_empty reply))) =
  PostResponse status_code body_text.

(** The whole trace of a delivery that both services answered. *)
Lemma handler_run_answered :
  webhook_telegram cfg env data =
  ( [ received;
      Log INFO (py "Chat %s says: %s") [chat_id; user_text];
      ChatCompletionsCreate (MODEL cfg) (messages cfg user_text);
      Log INFO (py "Sea-Lion replied") [];
      RequestsPost (send_url cfg)
        (payload chat_id (escape_markdown_v2 (or_empty reply)));
      if Z.eqb status_code 200
      then Log INFO (py "Message sent successfully to chat %s") [chat_id]
      else Log ERROR (py "Failed to send message: %s - %s")
             [JNum status_code; JStr body_text] ],
    Returned status_ok ).
Proof.
  unfold webhook_telegram, chat_completions_create, requests_post.
  rewrite Hroute. cbn [log lift bind emit ret]. rewrite Hcreate.
  cbn [first log lift bind emit ret]. rewrite Hpost.
  cbn [fst snd bind ret].
  destruct (Z.eqb status_code 200); reflexivity.
Qed.

End HandlerRuns.

Lemma route_scalar_or_sequence :
  route JNull = Raised TypeError /\
  (forall b, route (JBool b) = Raised TypeError) /\
  (forall n, route (JNum n) = Raised TypeError) /\
  (forall items,
     route (JArr items) =
     if existsb (is_str (py "message")) items
     then Raised TypeError else Returned Ignore) /\
  (forall s,
     route (JStr s) =
     if substring_in (py "message") s
     then Raised TypeError else Returned Ignore).
Proof.
  repeat split; reflexivity.
Qed.

Lemma route_not_object_cases (data : json) :
  (forall fields, data <> JObj fields) ->
  route data = Raised TypeError \/ route data = Returned Ignore.
Proof.
  intros H.
  destruct route_scalar_or_sequence as (H0 & H1 & H2 & H3 & H4).
  destruct data as [|b|n|s|items|fields]; auto.
  - rewrite H4. destruct (substring_in _ _); auto.
  - rewrite H3. destruct (existsb _ _); auto.
  - exfalso. exact (H fields eq_refl).
Qed.

Lemma route_message_not_object (fields : InboundUpdate) (m : json) :
  lookup (py "message") fields = Some m ->
  (forall fs, m <> JObj fs) ->
  route (JObj fields) = Raised TypeError.
Proof.
  intros Hm Hno. rewrite (route_unfold _ Hm).
  destruct m; try reflexivity.
  exfalso. exact (Hno fields0 eq_refl).
Qed.


(** X7.  The handler never exits the process and never answers with a
    status other than 200: it returns the empty body with 200, or
    [{'status': 'ok'}] with 200, or it ends with an exception. *)
Theorem webhook_telegram_outcomes (cfg : Config) (env : Env) (data : json) :
  outcome (webhook_telegram cfg env data) = Returned (TextBody [], 200%Z) \/
  outcome (webhook_telegram cfg env data) =
    Returned (JsonBody (JObj [ (py "status", JStr (py "ok")) ]), 200%Z) \/
  exists e : exn, outcome (webhook_telegram cfg env data) = Raised e.
Proof.
  handler_cases cfg env data; cbn [outcome snd]; eauto.
Qed.

(** X8.  An update object without a [message] key costs nothing: the
    handler logs that it received it, calls neither service, and answers
    with the empty body and status 200. *)
Theorem webhook_telegram_no_message (cfg : Config) (env : Env)
    (fields : InboundUpdate) :
  lookup (py "message") fields = None ->
  webhook_telegram cfg env (JObj fields) =
    ( [ Log INFO (py "Received update: %s") [JObj fields] ],
      Returned (TextBody [], 200%Z) ).
Proof.
  intros H. apply handler_run_ignore. now apply route_no_message.
Qed.

Lemma webhook_telegram_no_message_witness :
  webhook_telegram Samples.cfg Samples.backend_down Samples.edited_update =
    ( [ Log INFO (py "Received update: %s") [Samples.edited_update] ],
      Returned (TextBody [], 200%Z) ).
Proof.
  apply (@webhook_telegram_no_message Samples.cfg Samples.backend_down).
  reflexivity.
Defined.

(** X9.  A payload that is not an object: [null], a boolean or a number
    makes the membership test raise [TypeError]; a list or a string is
    ignored unless it holds ["message"] (as an element, as a substring),
    in which case the subscript raises [TypeError].  In no case is a
    service called. *)
Theorem webhook_telegram_not_object (cfg : Config) (env : Env) :
  outcome (webhook_telegram cfg env JNull) = Raised TypeError /\
  (forall b : bool,
     outcome (webhook_telegram cfg env (JBool b)) = Raised TypeError) /\
  (forall n : Z,
     outcome (webhook_telegram cfg env (JNum n)) = Raised TypeError) /\
  (forall items : list json,
     outcome (webhook_telegram cfg env (JArr items)) =
     if existsb (is_str (py "message")) items
     then Raised TypeError else Returned no_action) /\
  (forall s : text,
     outcome (webhook_telegram cfg env (JStr s)) =
     if substring_in (py "message") s
     then Raised TypeError else Returned no_action) /\
  (forall data : json,
     (forall fields, data <> JObj fields) ->
     calls (trace (webhook_telegram cfg env data)) = []).
Proof.
  repeat split; try reflexivity.
  - intros items.
    destruct (existsb (is_str (py "message")) items) eqn:H.
    + rewrite (@handler_run_raises cfg env (JArr items) TypeError);
        [reflexivity|].
      rewrite (proj1 (proj2 (proj2 (proj2 route_scalar_or_sequence)))), H.
      reflexivity.
    + rewrite (@handler_run_ignore cfg env (JArr items)); [reflexivity|].
      rewrite (proj1 (proj2 (proj2 (proj2 route_scalar_or_sequence)))), H.
      reflexivity.
  - intros s.
    destruct (substring_in (py "message") s) eqn:H.
    + rewrite (@handler_run_raises cfg env (JStr s) TypeError);
        [reflexivity|].
      rewrite (proj2 (proj2 (proj2 (proj2 route_scalar_or_sequence)))), H.
      reflexivity.
    + rewrite (@handler_run_ignore cfg env (JStr s)); [reflexivity|].
      rewrite (proj2 (proj2 (proj2 (proj2 route_scalar_or_sequence)))), H.
      reflexivity.
  - intros data Hno.
    destruct (@route_not_object_cases data Hno) as [H|H].
    + rewrite (@handler_run_raises cfg env data _ H). reflexivity.
    + rewrite (@handler_run_ignore cfg env data H). reflexivity.
Qed.

Lemma webhook_telegram_not_object_witness :
  calls (trace (webhook_telegram Samples.cfg Samples.backend_down
                  (JArr [JStr (py "message")]))) = [].
Proof.
  apply (proj2 (proj2 (proj2 (proj2 (proj2
           (webhook_telegram_not_object Samples.cfg Samples.backend_down)))))).
  intros fields H. discriminate H.
Defined.

(** X10.  An update whose [message] is there but is not an object (for
    instance [null]) is not ignored: reading [chat] from it raises
    [TypeError], before any service is called. *)
Theorem webhook_telegram_message_not_object (cfg : Config) (env : Env)
    (fields : InboundUpdate) (m : json) :
  lookup (py "message") fields = Some m ->
  (forall fs, m <> JObj fs) ->
  webhook_telegram cfg env (JObj fields) =
    ( [ Log INFO (py "Received update: %s") [JObj fields] ],
      Raised TypeError ).
Proof.
  intros Hm Hno. apply handler_run_raises.
  exact (@route_message_not_object fields m Hm Hno).
Qed.

Lemma webhook_telegram_message_not_object_witness :
  webhook_telegram Samples.cfg Samples.backend_down
    Cases.null_message_update =
    ( [ Log INFO (py "Received update: %s") [Cases.null_message_update] ],
      Raised TypeError ).
Proof.
  apply (@webhook_telegram_message_not_object
           Samples.cfg Samples.backend_down
           [ (py "update_id", JNum 4%Z); (py "message", JNull) ] JNull).
  - reflexivity.
  - intros fs H. discriminate H.
Defined.

(** X11.  Only the first choice of a completion is used: two runs whose
    completions agree on the first choice, and whose platform gives the
    same answer to the send, are the same run. *)
Theorem webhook_telegram_first_choice (cfg : Config) (env1 env2 : Env)
    (data chat_id user_text : json) (reply : option text)
    (others1 others2 : list (option text)) :
  route data = Returned (RelayMessage chat_id user_text) ->
  create_answer env1 (MODEL cfg) (messages cfg user_text) =
    CreateResponse (reply :: others1) ->
  create_answer env2 (MODEL cfg) (messages cfg user_text) =
    CreateResponse (reply :: others2) ->
  post_answer env1 (send_url cfg)
    (payload chat_id (escape_markdown_v2 (or_empty reply))) =
  post_answer env2 (send_url cfg)
    (payload chat_id (escape_markdown_v2 (or_empty reply))) ->
  webhook_telegram cfg env1 data = webhook_telegram cfg env2 data.
Proof.
  intros Hroute H1 H2 Hpost.
  unfold webhook_telegram, chat_completions_create, requests_post.
  rewrite Hroute. cbn [log lift bind emit ret].
  rewrite H1, H2. cbn [first log lift bind emit ret].
  rewrite Hpost. reflexivity.
Qed.

Lemma webhook_telegram_first_choice_witness :
  webhook_telegram Samples.cfg
    (Samples.answering 200 [Some (py "hello"); Some (py "bye")])
    Samples.text_update =
  webhook_telegram Samples.cfg
    (Samples.answering 200 [Some (py "hello")])
    Samples.text_update.
Proof.
  apply (@webhook_telegram_first_choice Samples.cfg
           (Samples.answering 200 [Some (py "hello"); Some (py "bye")])
           (Samples.answering 200 [Some (py "hello")])
           Samples.text_update (JNum 42%Z) (JStr (py "hi"))
           (Some (py "hello")) [Some (py "bye")] []);
    reflexivity.
Defined.

(** X12.  The text that is sent reads back as the reply: when the update
    is relayed and the completion has a first choice, the one send of the
    run carries the chat of the update, [parse_mode] [MarkdownV2], and a
    well-escaped text whose unescaped reading is the reply (the empty
    string for no content). *)
Theorem webhook_telegram_sent_text (cfg : Config) (env : Env)
    (data chat_id user_text : json) (reply : option text)
    (others : list (option text)) :
  route data = Returned (RelayMessage chat_id user_text) ->
  create_answer env (MODEL cfg) (messages cfg user_text) =
    CreateResponse (reply :: others) ->
  exists sent : text,
    posts (trace (webhook_telegram cfg env data)) =
      [ RequestsPost (send_url cfg)
          (JObj [ (py "chat_id", chat_id);
                  (py "text", JStr sent);
                  (py "parse_mode", JStr (py "MarkdownV2")) ]) ] /\
    well_escaped sent = true /\
    unescape sent = or_empty reply.
Proof.
  intros Hroute Hcreate.
  exists (escape_markdown_v2 (or_empty reply)).
  split; [|split].
  - exact (handler_send_issued cfg env data Hroute Hcreate).
  - apply well_escaped_escape.
  - apply unescape_escape_markdown_v2.
Qed.

Lemma webhook_telegram_sent_text_witness :
  exists sent : text,
    posts (trace (webhook_telegram Samples.cfg
                    (Samples.answering 200 [Some (py "*bold*")])
                    Samples.text_update)) =
      [ RequestsPost (send_url Samples.cfg)
          (JObj [ (py "chat_id", JNum 42%Z);
                  (py "text", JStr sent);
                  (py "parse_mode", JStr (py "MarkdownV2")) ]) ] /\
    well_escaped sent = true /\
    unescape sent = py "*bold*".
Proof.
  exact (@webhook_telegram_sent_text Samples.cfg
           (Samples.answering 200 [Some (py "*bold*")])
           Samples.text_update (JNum 42%Z) (JStr (py "hi"))
           (Some (py "*bold*")) [] eq_refl eq_refl).
Defined.

(** X13.  A delivery that both services answered leaves an ERROR record
    exactly when the send came back with a status other than 200, and the
    record carries that status and the response text. *)
Theorem webhook_telegram_send_error_logged (cfg : Config) (env : Env)
    (data chat_id user_text : json) (reply : option text)
    (others : list (option text)) (status_code : Z) (body_text : text) :
  route data = Returned (RelayMessage chat_id user_text) ->
  create_answer env (MODEL cfg) (messages cfg user_text) =
    CreateResponse (reply :: others) ->
  post_answer env (send_url cfg)
    (payload chat_id (escape_markdown_v2 (or_empty reply))) =
    PostResponse status_code body_text ->
  errors (trace (webhook_telegram cfg env data)) =
    if Z.eqb status_code 200 then []
    else [ Log ERROR (py "Failed to send message: %s - %s")
             [JNum status_code; JStr body_text] ].
Proof.
  intros Hroute Hcreate Hpost.
  rewrite (handler_run_answered cfg env data Hroute Hcreate Hpost).
  destruct (Z.eqb status_code 200); reflexivity.
Qed.

Lemma webhook_telegram_send_error_logged_witness :
  errors (trace (webhook_telegram Samples.cfg
                   (Samples.answering 403 [Some (py "hello")])
                   Samples.text_update)) =
    [ Log ERROR (py "Failed to send message: %s - %s")
        [JNum 403%Z; JStr (py "body")] ].
Proof.
  exact (@webhook_telegram_send_error_logged Samples.cfg
           (Samples.answering 403 [Some (py "hello")])
           Samples.text_update (JNum 42%Z) (JStr (py "hi"))
           (Some (py "hello")) [] 403%Z (py "body")
           eq_refl eq_refl eq_refl).
Defined.

(** * Further properties of the registrar and of module start *)

(** Every run of the registrar, by cases on the three settings, on the
    answers to the two calls and on the application context. *)
Ltac registrar_cases cfg env app_context :=
  unfold set_webhook, requests_post;
  destruct (truthy (TELEGRAM_TOKEN cfg)) eqn:?Htoken;
  destruct (truthy (WEBHOOK_URL cfg)) eqn:?Hurl;
  destruct (truthy (SEA_LION_API_KEY cfg)) eqn:?Hkey;
  cbn [negb orb log bind emit ret exit];
  try (destruct (post_answer env (delete_webhook_url cfg)
                   (delete_webhook_body cfg)) as [?s1 ?t1|?e1] eqn:?Hclear;
       cbn [fst snd log bind emit ret raise exit];
       [ destruct (Z.eqb s1 200);
         cbn [fst snd log bind emit ret raise app];
         (destruct (post_answer env (set_webhook_url cfg)
                      (set_webhook_body cfg)) as [?s2 ?t2|?e2] eqn:?Hset;
          cbn [fst snd log bind emit ret raise app];
          [ destruct (Z.eqb s2 200); destruct app_context;
            cbn [jsonify fst snd log bind emit ret raise app] | ])
       | ]).

Section RegistrarRuns.

Variables (cfg : Config) (env : Env) (app_context : bool).

Let clear :=
  RequestsPost (delete_webhook_url cfg) (delete_webhook_body cfg).
Let set := RequestsPost (set_webhook_url cfg) (set_webhook_body cfg).

Lemma registrar_not_configured :
  ~ configured cfg ->
  outcome (set_webhook cfg env app_context) = Exited 1%Z /\
  calls (trace (set_webhook cfg env app_context)) = [].
Proof.
  intros Hno. unfold configured in Hno.
  registrar_cases cfg env app_context;
    try (split; reflexivity);
    exfalso; apply Hno; repeat split; reflexivity.
Qed.

Lemma registrar_exited (c : Z) :
  outcome (set_webhook cfg env app_context) = Exited c ->
  ~ configured cfg /\ c = 1%Z.
Proof.
  unfold configured.
  registrar_cases cfg env app_context; cbn [outcome snd];
    intros H; try discriminate H;
    (split; [intros (H1 & H2 & H3); discriminate | congruence]).
Qed.

Lemma registrar_clear_raises (e : exn) :
  configured cfg ->
  post_answer env (delete_webhook_url cfg) (delete_webhook_body cfg) =
    PostRaises e ->
  outcome (set_webhook cfg env app_context) = Raised e /\
  calls (trace (set_webhook cfg env app_context)) = [clear].
Proof.
  intros (Htok & Hurl & Hkey) H1. subst clear.
  unfold set_webhook, requests_post.
  rewrite Htok, Hurl, Hkey. cbn [negb orb log bind emit ret].
  rewrite H1. split; reflexivity.
Qed.

Lemma registrar_set_raises (s1 : Z) (t1 : text) (e : exn) :
  configured cfg ->
  post_answer env (delete_webhook_url cfg) (delete_webhook_body cfg) =
    PostResponse s1 t1 ->
  post_answer env (set_webhook_url cfg) (set_webhook_body cfg) =
    PostRaises e ->
  outcome (set_webhook cfg env app_context) = Raised e /\
  calls (trace (set_webhook cfg env app_context)) = [clear; set].
Proof.
  intros (Htok & Hurl & Hkey) H1 H2. subst clear set.
  unfold set_webhook, requests_post.
  rewrite Htok, Hurl, Hkey. cbn [negb orb log bind emit ret].
  rewrite H1. cbn [fst snd log bind emit ret].
  destruct (Z.eqb s1 200); cbn [fst snd log bind emit ret app];
    rewrite H2; split; reflexivity.
Qed.

Lemma registrar_answered_errors (s1 s2 : Z) (t1 t2 : text) :
  configured cfg ->
  post_answer env (delete_webhook_url cfg) (delete_webhook_body cfg) =
    PostResponse s1 t1 ->
  post_answer env (set_webhook_url cfg) (set_webhook_body cfg) =
    PostResponse s2 t2 ->
  errors (trace (set_webhook cfg env app_context)) =
    (if Z.eqb s1 200 then []
     else [ Log ERROR (py "Failed to remove webhook: %s - %s")
              [JNum s1; JStr t1] ]) ++
    (if Z.eqb s2 200 then []
     else [ Log ERROR (py "Failed to set webhook: %s - %s")
              [JNum s2; JStr t2] ]) /\
  calls (trace (set_webhook cfg env app_context)) = [clear; set].
Proof.
  intros (Htok & Hurl & Hkey) H1 H2. subst clear set.
  unfold set_webhook, requests_post.
  rewrite Htok, Hurl, Hkey. cbn [negb orb log bind emit ret].
  rewrite H1. cbn [fst snd log bind emit ret].
  destruct (Z.eqb s1 200); cbn [fst snd log bind emit ret app];
    rewrite H2; cbn [fst snd log bind emit ret app];
    destruct (Z.eqb s2 200); destruct app_context; split; reflexivity.
Qed.

End RegistrarRuns.

Lemma registrar_returned_context (cfg : Config) (env : Env)
    (app_context : bool) (v : json * Z) :
  outcome (set_webhook cfg env app_context) = Returned v ->
  app_context = true.
Proof.
  registrar_cases cfg env app_context; cbn [outcome snd];
    intros H; try discriminate H; reflexivity.
Qed.

Lemma bind_returned_inv {A B : Type} (m : M A) (k : A -> M B) (b : B) :
  outcome (bind m k) = Returned b ->
  exists a : A, outcome m = Returned a /\ outcome (k a) = Returned b.
Proof.
  unfold outcome. destruct m as [tr [a|e|c]]; cbn [bind snd];
    try discriminate.
  intros H. exists a. split; [reflexivity|].
  destruct (k a) as [tr' r]. exact H.
Qed.

Lemma calls_app (tr1 tr2 : list event) :
  calls (tr1 ++ tr2) = calls tr1 ++ calls tr2.
Proof. unfold calls. apply filter_app. Qed.

Section StartupRuns.

Variables (cfg : Config) (env : Env).

Let clear :=
  RequestsPost (delete_webhook_url cfg) (delete_webhook_body cfg).
Let set := RequestsPost (set_webhook_url cfg) (set_webhook_body cfg).

Lemma startup_script_not_returned (u : unit) :
  outcome (module_startup cfg env true) <> Returned u.
Proof.
  unfold module_startup. intros H.
  apply bind_returned_inv in H. destruct H as (response & _ & H).
  apply bind_returned_inv in H. destruct H as (x & _ & H).
  apply bind_returned_inv in H. destruct H as (v & H & _).
  apply registrar_returned_context in H. discriminate H.
Qed.

Variables (s1 s2 : Z) (t1 t2 : text).
Hypothesis Hcfg : configured cfg.
Hypothesis Hclear :
  post_answer env (delete_webhook_url cfg) (delete_webhook_body cfg) =
  PostResponse s1 t1.
Hypothesis Hset :
  post_answer env (set_webhook_url cfg) (set_webhook_body cfg) =
  PostResponse s2 t2.

Lemma startup_script_run :
  outcome (module_startup cfg env true) = Raised RuntimeError /\
  calls (trace (module_startup cfg env true)) = [clear; set; clear; set].
Proof.
  subst clear set.
  destruct (set_webhook_answered env true Hcfg Hclear Hset) as [_ Ho1].
  destruct (registrar_answered_errors env true Hcfg Hclear Hset) as [_ Hc1].
  destruct (set_webhook_answered env false Hcfg Hclear Hset) as [_ Ho2].
  destruct (registrar_answered_errors env false Hcfg Hclear Hset)
    as [_ Hc2].
  unfold module_startup.
  destruct (set_webhook cfg env true) as [tr1 r1].
  destruct (set_webhook cfg env false) as [tr2 r2].
  cbn [outcome trace fst snd] in Ho1, Hc1, Ho2, Hc2. subst r1 r2.
  cbn [bind log emit ret outcome trace fst snd]. split; [reflexivity|].
  rewrite !calls_app, Hc1, Hc2. reflexivity.
Qed.

Lemma startup_import_run :
  outcome (module_startup cfg env false) = Returned tt /\
  calls (trace (module_startup cfg env false)) = [clear; set].
Proof.
  subst clear set.
  destruct (set_webhook_answered env true Hcfg Hclear Hset) as [_ Ho1].
  destruct (registrar_answered_errors env true Hcfg Hclear Hset) as [_ Hc1].
  unfold module_startup.
  destruct (set_webhook cfg env true) as [tr1 r1].
  cbn [outcome trace fst snd] in Ho1, Hc1. subst r1.
  cbn [bind log emit ret outcome trace fst snd]. split; [reflexivity|].
  rewrite !calls_app, Hc1. reflexivity.
Qed.

End StartupRuns.

(** X14.  The registrar exits exactly when a setting is missing or empty
    (the bot token, the webhook URL or the API key): it then exits with
    code 1 before any call to the platform, and it exits in no other
    case. *)
Theorem set_webhook_exits_iff_unconfigured (cfg : Config) (env : Env)
    (app_context : bool) :
  (~ configured cfg ->
   outcome (set_webhook cfg env app_context) = Exited 1%Z /\
   calls (trace (set_webhook cfg env app_context)) = []) /\
  (forall c : Z,
     outcome (set_webhook cfg env app_context) = Exited c ->
     ~ configured cfg /\ c = 1%Z).
Proof.
  split.
  - apply registrar_not_configured.
  - intros c. apply registrar_exited.
Qed.

Lemma set_webhook_exits_iff_unconfigured_witness :
  (outcome (set_webhook Cases.no_token Samples.registration_refused true) =
     Exited 1%Z /\
   calls (trace (set_webhook Cases.no_token Samples.registration_refused
                   true)) = []) /\
  (outcome (set_webhook Cases.empty_key Samples.registration_refused true) =
     Exited 1%Z /\
   calls (trace (set_webhook Cases.empty_key Samples.registration_refused
                   true)) = []).
Proof.
  split.
  - apply (proj1 (set_webhook_exits_iff_unconfigured
                    Cases.no_token Samples.registration_refused true)).
    intros (H & _). discriminate H.
  - apply (proj1 (set_webhook_exits_iff_unconfigured
                    Cases.empty_key Samples.registration_refused true)).
    intros (_ & _ & H). discriminate H.
Defined.

(** X15.  A transport failure of a registrar call is not absorbed.  When
    the clear call raises, the exception leaves [set_webhook] and the set
    call is never made; when the clear call is answered and the set call
    raises, the exception leaves [set_webhook] after the two calls. *)
Theorem set_webhook_transport_failure (cfg : Config) (env : Env)
    (app_context : bool) :
  configured cfg ->
  (forall e : exn,
     post_answer env (delete_webhook_url cfg) (delete_webhook_body cfg) =
       PostRaises e ->
     outcome (set_webhook cfg env app_context) = Raised e /\
     calls (trace (set_webhook cfg env app_context)) =
       [ RequestsPost (delete_webhook_url cfg) (delete_webhook_body cfg) ]) /\
  (forall (s1 : Z) (t1 : text) (e : exn),
     post_answer env (delete_webhook_url cfg) (delete_webhook_body cfg) =
       PostResponse s1 t1 ->
     post_answer env (set_webhook_url cfg) (set_webhook_body cfg) =
       PostRaises e ->
     outcome (set_webhook cfg env app_context) = Raised e /\
     calls (trace (set_webhook cfg env app_context)) =
       [ RequestsPost (delete_webhook_url cfg) (delete_webhook_body cfg);
         RequestsPost (set_webhook_url cfg) (set_webhook_body cfg) ]).
Proof.
  intros Hcfg. split.
  - intros e. now apply registrar_clear_raises.
  - intros s1 t1 e. now apply registrar_set_raises.
Qed.

Lemma set_webhook_transport_failure_witness :
  (outcome (set_webhook Samples.cfg Cases.clear_unreachable true) =
     Raised (RequestException (py "refused")) /\
   calls (trace (set_webhook Samples.cfg Cases.clear_unreachable true)) =
     [ RequestsPost (delete_webhook_url Samples.cfg)
         (delete_webhook_body Samples.cfg) ]) /\
  (outcome (set_webhook Samples.cfg Cases.set_unreachable true) =
     Raised (RequestException (py "reset")) /\
   calls (trace (set_webhook Samples.cfg Cases.set_unreachable true)) =
     [ RequestsPost (delete_webhook_url Samples.cfg)
         (delete_webhook_body Samples.cfg);
       RequestsPost (set_webhook_url Samples.cfg)
         (set_webhook_body Samples.cfg) ]).
Proof.
  split.
  - exact (proj1 (@set_webhook_transport_failure
                    Samples.cfg Cases.clear_unreachable true
                    (conj eq_refl (conj eq_refl eq_refl)))
             (RequestException (py "refused")) eq_refl).
  - exact (proj2 (@set_webhook_transport_failure
                    Samples.cfg Cases.set_unreachable true
                    (conj eq_refl (conj eq_refl eq_refl)))
             200%Z (py "ok") (RequestException (py "reset"))
             eq_refl eq_refl).
Defined.

(** X16.  In every run of the registrar, whatever the settings, the
    answers and the context, the outbound calls are an initial segment of
    the clear call followed by the set call: never a third call, never the
    set call without the clear call before it, never a call to the
    completion backend. *)
Theorem set_webhook_calls_prefix (cfg : Config) (env : Env)
    (app_context : bool) :
  is_prefix (calls (trace (set_webhook cfg env app_context)))
    [ RequestsPost (delete_webhook_url cfg) (delete_webhook_body cfg);
      RequestsPost (set_webhook_url cfg) (set_webhook_body cfg) ].
Proof.
  unfold is_prefix.
  registrar_cases cfg env app_context; eexists; reflexivity.
Qed.

(** X17.  When the platform answers both registrar calls, the ERROR
    records of the run are one record per call whose status is not 200,
    in the order of the calls, each with the status and the response
    text of its call. *)
Theorem set_webhook_error_records (cfg : Config) (env : Env)
    (app_context : bool) (s1 s2 : Z) (t1 t2 : text) :
  configured cfg ->
  post_answer env (delete_webhook_url cfg) (delete_webhook_body cfg) =
    PostResponse s1 t1 ->
  post_answer env (set_webhook_url cfg) (set_webhook_body cfg) =
    PostResponse s2 t2 ->
  errors (trace (set_webhook cfg env app_context)) =
    (if Z.eqb s1 200 then []
     else [ Log ERROR (py "Failed to remove webhook: %s - %s")
              [JNum s1; JStr t1] ]) ++
    (if Z.eqb s2 200 then []
     else [ Log ERROR (py "Failed to set webhook: %s - %s")
              [JNum s2; JStr t2] ]).
Proof.
  intros Hcfg H1 H2.
  exact (proj1 (registrar_answered_errors env app_context Hcfg H1 H2)).
Qed.

Lemma set_webhook_error_records_witness :
  errors (trace (set_webhook Samples.cfg Samples.registration_refused true)) =
    [ Log ERROR (py "Failed to remove webhook: %s - %s")
        [JNum 500%Z; JStr (py "error")];
      Log ERROR (py "Failed to set webhook: %s - %s")
        [JNum 404%Z; JStr (py "not found")] ].
Proof.
  exact (@set_webhook_error_records
           Samples.cfg Samples.registration_refused true
           500%Z 404%Z (py "error") (py "not found")
           (conj eq_refl (conj eq_refl eq_refl)) eq_refl eq_refl).
Defined.

(** X18.  [set_webhook] returns only inside an application context.
    Called outside of one, with the settings in place and both calls
    answered, it makes the two calls and then ends with [RuntimeError]
    at [jsonify]. *)
Theorem set_webhook_needs_app_context (cfg : Config) (env : Env) :
  (forall (app_context : bool) (v : json * Z),
     outcome (set_webhook cfg env app_context) = Returned v ->
     app_context = true) /\
  (forall (s1 s2 : Z) (t1 t2 : text),
     configured cfg ->
     post_answer env (delete_webhook_url cfg) (delete_webhook_body cfg) =
       PostResponse s1 t1 ->
     post_answer env (set_webhook_url cfg) (set_webhook_body cfg) =
       PostResponse s2 t2 ->
     outcome (set_webhook cfg env false) = Raised RuntimeError /\
     calls (trace (set_webhook cfg env false)) =
       [ RequestsPost (delete_webhook_url cfg) (delete_webhook_body cfg);
         RequestsPost (set_webhook_url cfg) (set_webhook_body cfg) ]).
Proof.
  split.
  - intros app_context v. apply registrar_returned_context.
  - intros s1 s2 t1 t2 Hcfg H1 H2. split.
    + exact (proj2 (set_webhook_answered env false Hcfg H1 H2)).
    + exact (proj2 (registrar_answered_errors env false Hcfg H1 H2)).
Qed.

Lemma set_webhook_needs_app_context_witness :
  outcome (set_webhook Samples.cfg (Samples.answering 200 []) false) =
    Raised RuntimeError.
Proof.
  exact (proj1 (proj2 (set_webhook_needs_app_context
                         Samples.cfg (Samples.answering 200 []))
                  200%Z 200%Z (py "body") (py "body")
                  (conj eq_refl (conj eq_refl eq_refl)) eq_refl eq_refl)).
Defined.

(** X19.  Loaded as a module, with the settings in place and the platform
    answering, start-up registers the webhook once (clear, set) and goes
    on.  Run as a script it never gets past the second [set_webhook]:
    with the same settings and answers it registers twice (clear, set,
    clear, set) and then ends with [RuntimeError], before the record that
    the bot is ready. *)
Theorem module_startup_runs (cfg : Config) (env : Env) :
  (forall u : unit, outcome (module_startup cfg env true) <> Returned u) /\
  (forall (s1 s2 : Z) (t1 t2 : text),
     configured cfg ->
     post_answer env (delete_webhook_url cfg) (delete_webhook_body cfg) =
       PostResponse s1 t1 ->
     post_answer env (set_webhook_url cfg) (set_webhook_body cfg) =
       PostResponse s2 t2 ->
     (outcome (module_startup cfg env false) = Returned tt /\
      calls (trace (module_startup cfg env false)) =
        [ RequestsPost (delete_webhook_url cfg) (delete_webhook_body cfg);
          RequestsPost (set_webhook_url cfg) (set_webhook_body cfg) ]) /\
     (outcome (module_startup cfg env true) = Raised RuntimeError /\
      calls (trace (module_startup cfg env true)) =
        [ RequestsPost (delete_webhook_url cfg) (delete_webhook_body cfg);
          RequestsPost (set_webhook_url cfg) (set_webhook_body cfg);
          RequestsPost (delete_webhook_url cfg) (delete_webhook_body cfg);
          RequestsPost (set_webhook_url cfg) (set_webhook_body cfg) ])).
Proof.
  split.
  - intros u. apply startup_script_not_returned.
  - intros s1 s2 t1 t2 Hcfg H1 H2. split.
    + exact (startup_import_run env Hcfg H1 H2).
    + exact (startup_script_run env Hcfg H1 H2).
Qed.

Lemma module_startup_runs_witness :
  outcome (module_startup Samples.cfg (Samples.answering 200 []) false) =
    Returned tt /\
  outcome (module_startup Samples.cfg (Samples.answering 200 []) true) =
    Raised RuntimeError.
Proof.
  pose proof (proj2 (module_startup_runs
                       Samples.cfg (Samples.answering 200 []))
                200%Z 200%Z (py "body") (py "body")
                (conj eq_refl (conj eq_refl eq_refl)) eq_refl eq_refl)
    as [[H1 _] [H2 _]].
  split; [exact H1 | exact H2].
Defined.
